(** * Typed Firestore (server): a shallow embedding of the document accessors

    The library is a thin layer over the Firestore admin SDK.  The SDK is an
    opaque collaborator: it is represented by a record of operations over an
    abstract client state, and every accessor of the library is a computation
    in a small state-and-failure monad that logs each request handed to the
    SDK.  JavaScript values are modelled only as far as [isPlainObject]
    inspects them. *)

From stdpp Require Import base option list strings pretty gmap.

Set Warnings "-register-all,-clear-no-such-hyp".
Local Open Scope string_scope.
Local Open Scope list_scope.

(** ** JavaScript values, as far as [typeof] and prototypes are concerned *)

Module Js.

(** The prototype objects a value's [[Prototype]] slot can point to.
    Identity of prototype objects ([===]) is equality of these names. *)
Inductive PrototypeObject :=
| ObjectPrototype                       (* Object.prototype *)
| ArrayPrototype                        (* Array.prototype *)
| FunctionPrototype                     (* Function.prototype *)
| ClassPrototype (name : string).       (* C.prototype of a class or built-in C *)

(** What [Object.getPrototypeOf] returns: a prototype object or [null]. *)
Inductive Proto :=
| ProtoNull
| ProtoRef (o : PrototypeObject).

(** Objects differ in their internal methods: callable objects answer
    ["function"] to [typeof], arrays are exotic but answer ["object"]. *)
Inductive ObjectKind := Ordinary | ArrayExotic | Callable.

Inductive Value :=
| VUndefined
| VNull
| VBoolean (b : bool)
| VNumber (n : Z)
| VBigInt (n : Z)
| VString (s : string)
| VSymbol (description : string)
| VObject (kind : ObjectKind) (proto : Proto) (props : list (string * Value)).

(** The strings [typeof] can produce. *)
Inductive TypeTag :=
| TUndefined | TObject | TBoolean | TNumber | TBigInt | TString | TSymbol
| TFunction.

(** A completion: a normal result or a thrown [TypeError]. *)
Inductive Completion (A : Type) :=
| Normal (a : A)
| ThrowTypeError (msg : string).
Arguments Normal {A} a.
Arguments ThrowTypeError {A} msg.

#[global] Instance PrototypeObject_eq_dec : EqDecision PrototypeObject.
Proof. solve_decision. Defined.
#[global] Instance Proto_eq_dec : EqDecision Proto.
Proof. solve_decision. Defined.
#[global] Instance TypeTag_eq_dec : EqDecision TypeTag.
Proof. solve_decision. Defined.

(** [typeof value]; note [typeof null] is ["object"]. *)
Definition typeof (value : Value) : TypeTag :=
  match value with
  | VUndefined => TUndefined
  | VNull => TObject
  | VBoolean _ => TBoolean
  | VNumber _ => TNumber
  | VBigInt _ => TBigInt
  | VString _ => TString
  | VSymbol _ => TSymbol
  | VObject Callable _ _ => TFunction
  | VObject _ _ _ => TObject
  end.

(** [value === null] *)
Definition is_null (value : Value) : bool :=
  match value with VNull => true | _ => false end.

(** [Object.getPrototypeOf(value)]: throws on [undefined] and [null],
    wraps the other primitives, reads the slot of an object. *)
Definition getPrototypeOf (value : Value) : Completion Proto :=
  match value with
  | VUndefined | VNull =>
      ThrowTypeError "Cannot convert undefined or null to object"
  | VBoolean _ => Normal (ProtoRef (ClassPrototype "Boolean"))
  | VNumber _ => Normal (ProtoRef (ClassPrototype "Number"))
  | VBigInt _ => Normal (ProtoRef (ClassPrototype "BigInt"))
  | VString _ => Normal (ProtoRef (ClassPrototype "String"))
  | VSymbol _ => Normal (ProtoRef (ClassPrototype "Symbol"))
  | VObject _ proto _ => Normal proto
  end.

(** [proto === other] on prototype slots. *)
Definition strict_eq (a b : Proto) : bool := bool_decide (a = b).

(** utils: [isPlainObject(value)] *)
Definition isPlainObject (value : Value) : Completion bool :=
  if negb (bool_decide (typeof value = TObject)) || is_null value
  then Normal false
  else
    match getPrototypeOf value with
    | ThrowTypeError msg => ThrowTypeError msg
    | Normal proto =>
        Normal (strict_eq proto (ProtoRef ObjectPrototype)
                || strict_eq proto ProtoNull)
    end.

(** Values as the usual expressions create them. *)

(** [{ k: v, ... }] *)
Definition object_literal (props : list (string * Value)) : Value :=
  VObject Ordinary (ProtoRef ObjectPrototype) props.

(** [Object.create(null)], possibly with properties assigned later *)
Definition object_create_null (props : list (string * Value)) : Value :=
  VObject Ordinary ProtoNull props.

Fixpoint index_from (i : nat) (elems : list Value) : list (string * Value) :=
  match elems with
  | [] => []
  | v :: rest => (pretty i, v) :: index_from (S i) rest
  end.

(** An array, with [Array.prototype] as every array is created. *)
Definition array_object (props : list (string * Value)) : Value :=
  VObject ArrayExotic (ProtoRef ArrayPrototype) props.

(** [[v0, v1, ...]] *)
Definition array_literal (elems : list Value) : Value :=
  array_object (index_from 0 elems).

(** [new C(...)] for a class [C], with its own properties *)
Definition class_instance (cls : string) (props : list (string * Value)) : Value :=
  VObject Ordinary (ProtoRef (ClassPrototype cls)) props.

(** A function value, whatever its prototype slot and properties are. *)
Definition function_value (proto : Proto) (props : list (string * Value)) : Value :=
  VObject Callable proto props.

(** The reading of "a non-null object": [typeof] says ["object"] and the
    value is not [null]. *)
Definition non_null_object (value : Value) : Prop :=
  typeof value = TObject ∧ value ≠ VNull.

End Js.

(** ** The Firestore admin SDK, seen from the library *)

Module Firestore.

(** [CollectionReference<T>]: identified by its [path]. *)
Record CollectionReference := { coll_path : string }.

(** [CollectionGroup<T>]: all collections with a given id. *)
Record CollectionGroup := { group_id : string }.

(** [DocumentReference<T>], as produced by [ref.doc(documentId)]. *)
Record DocumentReference := {
  doc_parent : CollectionReference;
  doc_id : string
}.

(** [ref.doc(documentId)].  The SDK's validation of the id is not part of
    the library and is not modelled. *)
Definition doc (ref : CollectionReference) (documentId : string) : DocumentReference :=
  {| doc_parent := ref; doc_id := documentId |}.

(** Stored field values; the library passes them through unchanged. *)
Inductive FieldValue :=
| FNull
| FBool (b : bool)
| FInt (n : Z)
| FString (s : string)
| FTimestamp (t : nat).

(** A record of type [T]: field name to value. *)
Abbreviation DocumentData := (gmap string FieldValue).

(** What [UpdateData<T>] allows for a field: a concrete value or a write
    marker such as [FieldValue.serverTimestamp()] or [FieldValue.delete()]. *)
Inductive UpdateValue :=
| Concrete (v : FieldValue)
| ServerTimestamp
| DeleteField.

Abbreviation UpdateData := (gmap string UpdateValue).

(** [Partial<T>] seen as [UpdateData<T>]: concrete values only. *)
Definition partial_update (data : DocumentData) : UpdateData :=
  Concrete <$> data.

(** [DocumentSnapshot<T>]: [exists], [ref], [id] and the result of
    [data()], which is [undefined] ([None]) for a missing document. *)
Record DocumentSnapshot := {
  snap_ref : DocumentReference;
  snap_exists : bool;
  snap_data : option DocumentData
}.

Definition snap_id (d : DocumentSnapshot) : string := doc_id (snap_ref d).

(** [QuerySnapshot<T>]: [empty] and [docs]. *)
Record QuerySnapshot := {
  qs_empty : bool;
  qs_docs : list DocumentSnapshot
}.

(** The snapshot the SDK builds from a list of result documents. *)
Definition query_snapshot (docs : list DocumentSnapshot) : QuerySnapshot :=
  {| qs_empty := bool_decide (docs = []); qs_docs := docs |}.

(** The field mask of [select(...fields)] on one result document: the fields
    named in [fields] are kept, the others dropped. *)
Definition project (fields : list string) (d : DocumentSnapshot) : DocumentSnapshot :=
  {| snap_ref := snap_ref d;
     snap_exists := snap_exists d;
     snap_data := filter (λ kv, kv.1 ∈ fields) <$> snap_data d |}.

(** [Transaction]: a handle on an in-flight transaction. *)
Record Transaction := { tx_id : nat }.

(** [WriteResult] *)
Record WriteResult := { write_time : nat }.

(** Failures the SDK raises on its own account. *)
Inductive ClientError :=
| NetworkError
| TransactionConflict
| PermissionDenied
| NotFoundOnWrite
| OtherClientError (msg : string).

#[global] Instance CollectionReference_eq_dec : EqDecision CollectionReference.
Proof. solve_decision. Defined.
#[global] Instance DocumentReference_eq_dec : EqDecision DocumentReference.
Proof. solve_decision. Defined.
#[global] Instance FieldValue_eq_dec : EqDecision FieldValue.
Proof. solve_decision. Defined.
#[global] Instance Transaction_eq_dec : EqDecision Transaction.
Proof. solve_decision. Defined.

(** The SDK as a record of operations over its own state [S], with queries
    of type [Q].  Query builders are pure; reads and writes act on the
    state and may fail. *)
Record Client (S Q : Type) := {
  (* query.select(...fields) *)
  q_select : Q → list string → Q;
  (* query.limit(n) *)
  q_limit : Q → nat → Q;
  (* docRef.get() *)
  doc_get : DocumentReference → S → (ClientError + DocumentSnapshot) * S;
  (* query.get() *)
  query_get : Q → S → (ClientError + QuerySnapshot) * S;
  (* tx.get(docRef) *)
  tx_get_doc : Transaction → DocumentReference → S → (ClientError + DocumentSnapshot) * S;
  (* tx.get(query) *)
  tx_get_query : Transaction → Q → S → (ClientError + QuerySnapshot) * S;
  (* docRef.update(data) *)
  doc_update : DocumentReference → UpdateData → S → (ClientError + WriteResult) * S;
  (* tx.update(docRef, data) *)
  tx_update : Transaction → DocumentReference → UpdateData → S → (ClientError + Transaction) * S
}.
Arguments q_select {S Q} _ _ _.
Arguments q_limit {S Q} _ _ _.
Arguments doc_get {S Q} _ _ _.
Arguments query_get {S Q} _ _ _.
Arguments tx_get_doc {S Q} _ _ _ _.
Arguments tx_get_query {S Q} _ _ _ _.
Arguments doc_update {S Q} _ _ _ _.
Arguments tx_update {S Q} _ _ _ _ _.

(** One request handed to the SDK. *)
Inductive Call (Q : Type) :=
| CallDocGet (d : DocumentReference)
| CallQueryGet (q : Q)
| CallTxGetDoc (tx : Transaction) (d : DocumentReference)
| CallTxGetQuery (tx : Transaction) (q : Q)
| CallDocUpdate (d : DocumentReference) (data : UpdateData)
| CallTxUpdate (tx : Transaction) (d : DocumentReference) (data : UpdateData).
Arguments CallDocGet {Q} d.
Arguments CallQueryGet {Q} q.
Arguments CallTxGetDoc {Q} tx d.
Arguments CallTxGetQuery {Q} tx q.
Arguments CallDocUpdate {Q} d data.
Arguments CallTxUpdate {Q} tx d data.

(** A write that goes to the database directly, outside any transaction. *)
Definition is_direct_write {Q} (c : Call Q) : bool :=
  match c with CallDocUpdate _ _ => true | _ => false end.

End Firestore.

(** ** The library *)

Module TypedFirestore.
Import Firestore.

(** Why an asynchronous function rejects (or a synchronous one throws). *)
Inductive Failure :=
| InvariantViolation (msg : string)
| ClientFailure (e : ClientError)
| TypeError (msg : string).

Inductive Outcome (A : Type) :=
| Returned (a : A)
| Failed (f : Failure).
Arguments Returned {A} a.
Arguments Failed {A} f.

(** The SDK's state together with the log of requests made so far. *)
Record World (S Q : Type) := {
  client_state : S;
  calls : list (Call Q)
}.
Arguments Build_World {S Q} _ _.
Arguments client_state {S Q} _.
Arguments calls {S Q} _.

(** A computation of the library: it runs against the world and either
    returns or fails.  [await] is sequencing. *)
Definition Task (S Q A : Type) : Type := World S Q → Outcome A * World S Q.

Definition ret {S Q A} (a : A) : Task S Q A := λ w, (Returned a, w).

Definition throw {S Q A} (f : Failure) : Task S Q A := λ w, (Failed f, w).

Definition bind {S Q A B} (m : Task S Q A) (k : A → Task S Q B) : Task S Q B :=
  λ w, match m w with
       | (Returned a, w') => k a w'
       | (Failed f, w') => (Failed f, w')
       end.

(** The outcome of a request the SDK answered with [r]: an SDK failure
    becomes the failure of the computation, unchanged. *)
Definition request_outcome {A} (r : ClientError + A) : Outcome A :=
  match r with
  | inl e => Failed (ClientFailure e)
  | inr a => Returned a
  end.

(** The world after one more request. *)
Definition after {S Q} (w : World S Q) (s' : S) (c : Call Q) : World S Q :=
  {| client_state := s'; calls := calls w ++ [c] |}.

(** Hand one request to the SDK: log it and run it on the SDK's state. *)
Definition request {S Q A} (c : Call Q) (op : S → (ClientError + A) * S) : Task S Q A :=
  λ w, let '(r, s') := op (client_state w) in (request_outcome r, after w s' c).

Declare Scope task_scope.
Delimit Scope task_scope with task.
Notation "'let*' x ':=' m 'in' k" := (bind m (λ x, k))
  (at level 10, x name, m at level 100, k at level 200) : task_scope.
Notation "m ';;' k" := (bind m (λ _, k))
  (at level 100, k at level 200, right associativity) : task_scope.

(** Modelled from the spec: [invariant] of [~/utils], which is not among the
    sources.  A false condition is a precondition violation: the call fails
    at once with the given message; a true condition lets the caller go on. *)
Definition invariant {S Q} (condition : bool) (message : string) : Task S Q unit :=
  if condition then ret () else throw (InvariantViolation message).

(** A [documentId?: string | null] argument. *)
Inductive OptionalId :=
| IdUndefined
| IdNull
| IdString (s : string).

(** The narrowing done by [if (!documentId) return;]: [undefined], [null]
    and the empty string are falsy, every other string is the id. *)
Definition truthy_id (documentId : OptionalId) : option string :=
  match documentId with
  | IdString s => if bool_decide (s = "") then None else Some s
  | _ => None
  end.

(** [options: { select?: S } = {}] *)
Record Options := { select : option (list string) }.

Definition default_options : Options := {| select := None |}.

(** [FsMutableDocument<T>] *)
Record FsMutableDocument (S Q : Type) := {
  md_ref : DocumentReference;
  md_update : UpdateData → Task S Q WriteResult;
  md_updateWithPartial : DocumentData → Task S Q WriteResult;
  md_id : string;
  md_data : option DocumentData
}.
Arguments md_ref {S Q} _.
Arguments md_update {S Q} _ _.
Arguments md_updateWithPartial {S Q} _ _.
Arguments md_id {S Q} _.
Arguments md_data {S Q} _.

(** [FsMutableDocumentFromTransaction<T>]: [update] is synchronous and
    returns the [Transaction]. *)
Record FsMutableDocumentFromTransaction (S Q : Type) := {
  mt_ref : DocumentReference;
  mt_update : UpdateData → Task S Q Transaction;
  mt_updateWithPartial : DocumentData → Task S Q Transaction;
  mt_id : string;
  mt_data : option DocumentData
}.
Arguments mt_ref {S Q} _.
Arguments mt_update {S Q} _ _.
Arguments mt_updateWithPartial {S Q} _ _.
Arguments mt_id {S Q} _.
Arguments mt_data {S Q} _.

Section Accessors.
Context {S Q : Type} (client : Client S Q).
Local Open Scope task_scope.

(** [await ref.get()] and friends: the requests the library makes. *)
Definition get_doc (d : DocumentReference) : Task S Q DocumentSnapshot :=
  request (CallDocGet d) (doc_get client d).

Definition get_query (q : Q) : Task S Q QuerySnapshot :=
  request (CallQueryGet q) (query_get client q).

Definition tx_get (tx : Transaction) (d : DocumentReference) : Task S Q DocumentSnapshot :=
  request (CallTxGetDoc tx d) (tx_get_doc client tx d).

Definition tx_get_q (tx : Transaction) (q : Q) : Task S Q QuerySnapshot :=
  request (CallTxGetQuery tx q) (tx_get_query client tx q).

Definition update_doc (d : DocumentReference) (data : UpdateData) : Task S Q WriteResult :=
  request (CallDocUpdate d data) (doc_update client d data).

Definition update_tx (tx : Transaction) (d : DocumentReference) (data : UpdateData)
  : Task S Q Transaction :=
  request (CallTxUpdate tx d data) (tx_update client tx d data).

(** The message of the exists-invariant. *)
Definition not_found_message (ref : CollectionReference) (documentId : string) : string :=
  "No document available at " +:+ coll_path ref +:+ "/" +:+ documentId.

(** documents/get-document-data.ts: [getDocumentData].  The result is what
    [doc.data()] gives; the [!] after it is a type assertion and does nothing
    at run time, so the result type keeps [undefined] ([None]). *)
Definition getDocumentData (ref : CollectionReference) (documentId : string)
  : Task S Q (option DocumentData) :=
  let* doc := get_doc (doc ref documentId) in
  invariant (snap_exists doc) (not_found_message ref documentId);;
  ret (snap_data doc).

(** documents/get-document-data.ts: [getDocumentDataMaybe] *)
Definition getDocumentDataMaybe (ref : CollectionReference) (documentId : OptionalId)
  : Task S Q (option DocumentData) :=
  match truthy_id documentId with
  | None => ret None
  | Some documentId =>
      let* doc := get_doc (doc ref documentId) in
      if negb (snap_exists doc) then ret None
      else ret (snap_data doc)
  end.

(** documents/get-document-data.ts: [getDocumentDataInTransaction] *)
Definition getDocumentDataInTransaction (tx : Transaction) (ref : CollectionReference)
  (documentId : string) : Task S Q (option DocumentData) :=
  let* doc := tx_get tx (doc ref documentId) in
  invariant (snap_exists doc) (not_found_message ref documentId);;
  ret (snap_data doc).

(** documents/get-document-data.ts: [getDocumentDataInTransactionMaybe] *)
Definition getDocumentDataInTransactionMaybe (tx : Transaction) (ref : CollectionReference)
  (documentId : OptionalId) : Task S Q (option DocumentData) :=
  match truthy_id documentId with
  | None => ret None
  | Some documentId =>
      let* doc := tx_get tx (doc ref documentId) in
      if negb (snap_exists doc) then ret None
      else ret (snap_data doc)
  end.

(** Modelled from the spec: [makeMutableDocument] of [~/documents], which is
    not among the sources.  Given a fetched snapshot it produces the wrapper
    [{ id, data, ref, update, updateWithPartial }]; no transaction is bound,
    so [update] and [updateWithPartial] write through the document's own
    reference at once.  Nothing is written at construction. *)
Definition makeMutableDocument (doc : DocumentSnapshot) : FsMutableDocument S Q :=
  {| md_ref := snap_ref doc;
     md_update := λ data, update_doc (snap_ref doc) data;
     md_updateWithPartial := λ data, update_doc (snap_ref doc) (partial_update data);
     md_id := snap_id doc;
     md_data := snap_data doc |}.

(** Modelled from the spec: [makeMutableDocumentInTransaction] of
    [~/documents], which is not among the sources.  Same wrapper, bound to
    the transaction [tx]: [update] and [updateWithPartial] stage the write
    against [tx] (the SDK's [tx.update(ref, data)]) and return the
    transaction. *)
Definition makeMutableDocumentInTransaction (doc : DocumentSnapshot) (tx : Transaction)
  : FsMutableDocumentFromTransaction S Q :=
  {| mt_ref := snap_ref doc;
     mt_update := λ data, update_tx tx (snap_ref doc) data;
     mt_updateWithPartial := λ data, update_tx tx (snap_ref doc) (partial_update data);
     mt_id := snap_id doc;
     mt_data := snap_data doc |}.

(** Reading [id], [ref] and [data()] off [snapshot.docs[0]] when the array
    has no first element throws. *)
Definition undefined_snapshot_message : string :=
  "Cannot read properties of undefined".

(** [options.select ? queryFn(ref).select(...options.select) : queryFn(ref)].
    An array is truthy even when empty, so only an absent [select] takes the
    second branch. *)
Definition finalQuery {R : Type} (ref : R) (queryFn : R → Q) (options : Options) : Q :=
  match select options with
  | Some fields => q_select client (queryFn ref) fields
  | None => queryFn ref
  end.

(** [getFirstDocument] *)
Definition getFirstDocument (ref : CollectionReference)
  (queryFn : CollectionReference → Q) (options : Options)
  : Task S Q (option (FsMutableDocument S Q)) :=
  let finalQuery := finalQuery ref queryFn options in
  let* snapshot := get_query (q_limit client finalQuery 1) in
  if qs_empty snapshot then ret None
  else
    match qs_docs snapshot !! 0%nat with
    | Some doc => ret (Some (makeMutableDocument doc))
    | None => throw (TypeError undefined_snapshot_message)
    end.

(** [getFirstDocumentInTransaction]: [ref] is a collection or a collection
    group. *)
Definition getFirstDocumentInTransaction (tx : Transaction)
  (ref : CollectionReference + CollectionGroup)
  (queryFn : CollectionReference + CollectionGroup → Q) (options : Options)
  : Task S Q (option (FsMutableDocumentFromTransaction S Q)) :=
  let finalQuery := finalQuery ref queryFn options in
  let* snapshot := tx_get_q tx (q_limit client finalQuery 1) in
  if qs_empty snapshot then ret None
  else
    match qs_docs snapshot !! 0%nat with
    | Some doc => ret (Some (makeMutableDocumentInTransaction doc tx))
    | None => throw (TypeError undefined_snapshot_message)
    end.

End Accessors.

(** What a read answered with [r] means for the required-fetch accessors:
    an SDK failure is passed on, a missing document violates the invariant,
    an existing one yields [data()]. *)
Definition required_outcome (ref : CollectionReference) (documentId : string)
  (r : ClientError + DocumentSnapshot) : Outcome (option DocumentData) :=
  match r with
  | inl e => Failed (ClientFailure e)
  | inr snap =>
      if snap_exists snap then Returned (snap_data snap)
      else Failed (InvariantViolation (not_found_message ref documentId))
  end.

(** The same for the maybe-fetch accessors. *)
Definition maybe_outcome (r : ClientError + DocumentSnapshot) : Outcome (option DocumentData) :=
  match r with
  | inl e => Failed (ClientFailure e)
  | inr snap => if snap_exists snap then Returned (snap_data snap) else Returned None
  end.

(** The requests a maybe-fetch makes: one read when the id is truthy, none
    otherwise. *)
Definition maybe_requests {Q} (read : DocumentReference → Call Q)
  (ref : CollectionReference) (documentId : OptionalId) : list (Call Q) :=
  match truthy_id documentId with
  | Some id => [read (doc ref id)]
  | None => []
  end.

(** What a query read answered with [r] means for the first-document
    accessors, [wrap] being the wrapper's constructor. *)
Definition first_outcome {D} (wrap : DocumentSnapshot → D)
  (r : ClientError + QuerySnapshot) : Outcome (option D) :=
  match r with
  | inl e => Failed (ClientFailure e)
  | inr snapshot =>
      if qs_empty snapshot then Returned None
      else
        match qs_docs snapshot !! 0%nat with
        | Some doc => Returned (Some (wrap doc))
        | None => Failed (TypeError undefined_snapshot_message)
        end
  end.

End TypedFirestore.

(** ** An in-memory Firestore

    A small reference SDK: documents are kept in insertion order, a query
    names a collection, equality filters, an optional field mask and an
    optional limit, and a transaction buffers its writes until commit. *)

Module MemFirestore.
Import Firestore.

Record MemQuery := {
  mq_collection : CollectionReference;
  mq_where : list (string * FieldValue);
  mq_select : option (list string);
  mq_limit : option nat
}.

Record MemState := {
  store : list (DocumentReference * DocumentData);
  staged : list (Transaction * DocumentReference * UpdateData);
  clock : nat
}.

(** [collection.where(field, "==", value)] *)
Definition mem_where (field : string) (value : FieldValue) (q : MemQuery) : MemQuery :=
  {| mq_collection := mq_collection q;
     mq_where := mq_where q ++ [(field, value)];
     mq_select := mq_select q;
     mq_limit := mq_limit q |}.

(** A collection reference used as a query. *)
Definition mem_collection (ref : CollectionReference) : MemQuery :=
  {| mq_collection := ref; mq_where := []; mq_select := None; mq_limit := None |}.

Definition mem_select (q : MemQuery) (fields : list string) : MemQuery :=
  {| mq_collection := mq_collection q;
     mq_where := mq_where q;
     mq_select := Some fields;
     mq_limit := mq_limit q |}.

Definition mem_limit (q : MemQuery) (n : nat) : MemQuery :=
  {| mq_collection := mq_collection q;
     mq_where := mq_where q;
     mq_select := mq_select q;
     mq_limit := Some n |}.

Fixpoint lookup_doc (d : DocumentReference) (docs : list (DocumentReference * DocumentData))
  : option DocumentData :=
  match docs with
  | [] => None
  | (d', data) :: rest => if bool_decide (d' = d) then Some data else lookup_doc d rest
  end.

Definition read_doc (d : DocumentReference) (s : MemState) : DocumentSnapshot :=
  match lookup_doc d (store s) with
  | Some data => {| snap_ref := d; snap_exists := true; snap_data := Some data |}
  | None => {| snap_ref := d; snap_exists := false; snap_data := None |}
  end.

Definition satisfies (data : DocumentData) (cond : string * FieldValue) : bool :=
  bool_decide (data !! cond.1 = Some cond.2).

Definition selected (q : MemQuery) (entry : DocumentReference * DocumentData) : bool :=
  bool_decide (doc_parent entry.1 = mq_collection q)
  && forallb (satisfies entry.2) (mq_where q).

Definition stored_snapshot (entry : DocumentReference * DocumentData) : DocumentSnapshot :=
  {| snap_ref := entry.1; snap_exists := true; snap_data := Some entry.2 |}.

(** The documents a query matches, in storage order, before mask and
    limit. *)
Definition matching (q : MemQuery) (s : MemState) : list DocumentSnapshot :=
  stored_snapshot <$> List.filter (selected q) (store s).

Definition run_query (q : MemQuery) (s : MemState) : list DocumentSnapshot :=
  let masked :=
    match mq_select q with
    | Some fields => project fields <$> matching q s
    | None => matching q s
    end in
  match mq_limit q with
  | Some n => take n masked
  | None => masked
  end.

(** One field of an update applied to the stored record. *)
Definition apply_field (now : nat) (u : option UpdateValue) (old : option FieldValue)
  : option FieldValue :=
  match u with
  | Some (Concrete v) => Some v
  | Some ServerTimestamp => Some (FTimestamp now)
  | Some DeleteField => None
  | None => old
  end.

Definition apply_update (now : nat) (data : UpdateData) (old : DocumentData) : DocumentData :=
  merge (apply_field now) data old.

Fixpoint write_doc (now : nat) (d : DocumentReference) (data : UpdateData)
  (docs : list (DocumentReference * DocumentData)) : list (DocumentReference * DocumentData) :=
  match docs with
  | [] => []
  | (d', old) :: rest =>
      if bool_decide (d' = d) then (d', apply_update now data old) :: rest
      else (d', old) :: write_doc now d data rest
  end.

Definition mem_doc_update (d : DocumentReference) (data : UpdateData) (s : MemState)
  : (ClientError + WriteResult) * MemState :=
  match lookup_doc d (store s) with
  | None => (inl NotFoundOnWrite, s)
  | Some _ =>
      (inr {| write_time := clock s |},
       {| store := write_doc (clock s) d data (store s);
          staged := staged s;
          clock := S (clock s) |})
  end.

Definition mem_tx_update (tx : Transaction) (d : DocumentReference) (data : UpdateData)
  (s : MemState) : (ClientError + Transaction) * MemState :=
  (inr tx,
   {| store := store s; staged := staged s ++ [(tx, d, data)]; clock := clock s |}).

(** Commit of [tx]: its buffered writes reach the store, in the order they
    were staged. *)
Definition commit (tx : Transaction) (s : MemState) : MemState :=
  let mine := List.filter (λ w, bool_decide (w.1.1 = tx)) (staged s) in
  let others := List.filter (λ w, negb (bool_decide (w.1.1 = tx))) (staged s) in
  {| store := foldl (λ docs w, write_doc (clock s) w.1.2 w.2 docs) (store s) mine;
     staged := others;
     clock := S (clock s) |}.

Definition memClient : Client MemState MemQuery :=
  {| q_select := mem_select;
     q_limit := mem_limit;
     doc_get := λ d s, (inr (read_doc d s), s);
     query_get := λ q s, (inr (query_snapshot (run_query q s)), s);
     tx_get_doc := λ _ d s, (inr (read_doc d s), s);
     tx_get_query := λ _ q s, (inr (query_snapshot (run_query q s)), s);
     doc_update := mem_doc_update;
     tx_update := mem_tx_update |}.

(** A client whose every read fails with the same error, and that is
    otherwise the in-memory one. *)
Definition failingClient (e : ClientError) : Client MemState MemQuery :=
  {| q_select := mem_select;
     q_limit := mem_limit;
     doc_get := λ _ s, (inl e, s);
     query_get := λ _ s, (inl e, s);
     tx_get_doc := λ _ _ s, (inl e, s);
     tx_get_query := λ _ _ s, (inl e, s);
     doc_update := mem_doc_update;
     tx_update := mem_tx_update |}.

(** A sample database: two books and a user. *)
Definition books : CollectionReference := {| coll_path := "books" |}.
Definition users : CollectionReference := {| coll_path := "users" |}.

Definition book (title author : string) (published : bool) : DocumentData :=
  {[ "title" := FString title; "author" := FString author;
     "is_published" := FBool published ]}.

Definition sample : MemState :=
  {| store := [ (doc books "b1", book "Dune" "Herbert" true);
                (doc books "b2", book "Emma" "Austen" true);
                (doc users "u1", {[ "name" := FString "Ada" ]}) ];
     staged := [];
     clock := 7 |}.

(** The world the sample database starts in: nothing requested yet. *)
Definition w0 : TypedFirestore.World MemState MemQuery :=
  TypedFirestore.Build_World sample [].

Definition tx1 : Transaction := {| tx_id := 1 |}.

(** A sample update: a new title. *)
Definition retitle : UpdateData := {[ "title" := Concrete (FString "Dune II") ]}.

End MemFirestore.

(** ** Observations on outcomes and request logs *)

Module Observations.
Import Firestore TypedFirestore MemFirestore.

(** A request that writes, at once or through a transaction. *)
Definition is_write {Q} (c : Call Q) : bool :=
  match c with
  | CallDocUpdate _ _ | CallTxUpdate _ _ _ => true
  | _ => false
  end.

(** The writes among the requests of a log. *)
Definition writes {Q} (log : list (Call Q)) : list (Call Q) :=
  List.filter is_write log.

(** An outcome in which the violated exists-invariant counts as
    [undefined]; every other outcome is kept. *)
Definition absent_as_undefined {A} (o : Outcome (option A)) : Outcome (option A) :=
  match o with
  | Failed (InvariantViolation _) => Returned None
  | _ => o
  end.

(** An optional snapshot carried into an optional wrapper. *)
Definition wrap_outcome {A B} (wrap : A → B) (o : Outcome (option A))
  : Outcome (option B) :=
  match o with
  | Returned a => Returned (wrap <$> a)
  | Failed f => Failed f
  end.

(** The three falsy id arguments. *)
Definition falsy_id (documentId : OptionalId) : Prop :=
  documentId = IdUndefined ∨ documentId = IdNull ∨ documentId = IdString "".

(** An SDK that does not honour [limit]: the in-memory one with a [limit]
    that gives the query back. *)
Definition unlimitedClient : Client MemState MemQuery :=
  {| q_select := mem_select;
     q_limit := λ q _, q;
     doc_get := λ d s, (inr (read_doc d s), s);
     query_get := λ q s, (inr (query_snapshot (run_query q s)), s);
     tx_get_doc := λ _ d s, (inr (read_doc d s), s);
     tx_get_query := λ _ q s, (inr (query_snapshot (run_query q s)), s);
     doc_update := mem_doc_update;
     tx_update := mem_tx_update |}.

(** A query function over a collection or a collection group of the
    in-memory SDK; a group is looked up under its id. *)
Definition mem_target (ref : CollectionReference + CollectionGroup) : MemQuery :=
  match ref with
  | inl collection => mem_collection collection
  | inr group => mem_collection {| coll_path := group_id group |}
  end.

End Observations.

(** ** Properties of [isPlainObject] *)

Module JsProperties.
Import Js.

Lemma isPlainObject_total (value : Value) :
  ∃ b, isPlainObject value = Normal b.
Proof.
  destruct value as [| | | | | | |kind proto props]; try (eexists; reflexivity).
  destruct kind; unfold isPlainObject; simpl; eexists; reflexivity.
Qed.

Lemma isPlainObject_true_iff (value : Value) :
  isPlainObject value = Normal true ↔
  non_null_object value ∧
  (getPrototypeOf value = Normal (ProtoRef ObjectPrototype)
   ∨ getPrototypeOf value = Normal ProtoNull).
Proof.
  unfold non_null_object.
  destruct value as [| | | | | | |kind proto props];
    try (split; [discriminate | intros [[Ht Hn] _]; try discriminate; congruence]).
  destruct kind; unfold isPlainObject, strict_eq; simpl;
    try (split; [discriminate | intros [[Ht _] _]; discriminate]).
  all: destruct proto as [|[]]; simpl; split;
    try discriminate; try (intros [_ [H|H]]; discriminate);
    try (intros _; split; [split; [reflexivity|discriminate]|]; auto);
    try reflexivity.
  all: intros [_ [H|H]]; inversion H.
Qed.

(** C10: [isPlainObject] never throws, and it answers [true] exactly for a
    non-null object (a value whose [typeof] is ["object"] and that is not
    [null]) whose prototype is [Object.prototype] or [null].  In particular
    it answers [false] for arrays, for functions and for class
    instances, and [true] for objects made by [Object.create(null)] and for
    object literals. *)
Theorem isPlainObject_spec :
  (∀ value, ∃ b, isPlainObject value = Normal b) ∧
  (∀ value,
     isPlainObject value = Normal true ↔
     non_null_object value ∧
     (getPrototypeOf value = Normal (ProtoRef ObjectPrototype)
      ∨ getPrototypeOf value = Normal ProtoNull)) ∧
  (∀ props, isPlainObject (array_object props) = Normal false) ∧
  (∀ elems, isPlainObject (array_literal elems) = Normal false) ∧
  (∀ proto props, isPlainObject (function_value proto props) = Normal false) ∧
  (∀ cls props, isPlainObject (class_instance cls props) = Normal false) ∧
  (∀ props, isPlainObject (object_create_null props) = Normal true) ∧
  (∀ props, isPlainObject (object_literal props) = Normal true).
Proof.
  split; [exact isPlainObject_total|].
  split; [exact isPlainObject_true_iff|].
  repeat split; intros; reflexivity.
Qed.

(** Primitives and [null] are not plain objects. *)
Example isPlainObject_primitives :
  isPlainObject VNull = Normal false ∧
  isPlainObject VUndefined = Normal false ∧
  isPlainObject (VString "x") = Normal false ∧
  isPlainObject (VNumber 3) = Normal false.
Proof. repeat split. Qed.

End JsProperties.

(** ** Properties of the single-document accessors *)

Module DocumentDataProperties.
Import Firestore TypedFirestore MemFirestore.

Ltac run_task :=
  unfold getDocumentData, getDocumentDataMaybe, getDocumentDataInTransaction,
    getDocumentDataInTransactionMaybe, get_doc, tx_get, request, request_outcome,
    bind, invariant, ret, throw, after, required_outcome, maybe_outcome; simpl.

Section Runs.
Context {S Q : Type} (client : Client S Q).
Implicit Types (ref : CollectionReference) (tx : Transaction) (w : World S Q).

Lemma getDocumentData_run ref documentId w r s' :
  doc_get client (doc ref documentId) (client_state w) = (r, s') →
  getDocumentData client ref documentId w
  = (required_outcome ref documentId r, after w s' (CallDocGet (doc ref documentId))).
Proof.
  intros Hget. run_task. rewrite Hget.
  destruct r as [e|snap]; [reflexivity|]. by destruct (snap_exists snap).
Qed.

Lemma getDocumentDataInTransaction_run tx ref documentId w r s' :
  tx_get_doc client tx (doc ref documentId) (client_state w) = (r, s') →
  getDocumentDataInTransaction client tx ref documentId w
  = (required_outcome ref documentId r, after w s' (CallTxGetDoc tx (doc ref documentId))).
Proof.
  intros Hget. run_task. rewrite Hget.
  destruct r as [e|snap]; [reflexivity|]. by destruct (snap_exists snap).
Qed.

Lemma getDocumentDataMaybe_run ref documentId w r s' :
  documentId ≠ "" →
  doc_get client (doc ref documentId) (client_state w) = (r, s') →
  getDocumentDataMaybe client ref (IdString documentId) w
  = (maybe_outcome r, after w s' (CallDocGet (doc ref documentId))).
Proof.
  intros Hne Hget. run_task. rewrite bool_decide_eq_false_2 by done.
  rewrite Hget. destruct r as [e|snap]; [reflexivity|]. by destruct (snap_exists snap).
Qed.

Lemma getDocumentDataInTransactionMaybe_run tx ref documentId w r s' :
  documentId ≠ "" →
  tx_get_doc client tx (doc ref documentId) (client_state w) = (r, s') →
  getDocumentDataInTransactionMaybe client tx ref (IdString documentId) w
  = (maybe_outcome r, after w s' (CallTxGetDoc tx (doc ref documentId))).
Proof.
  intros Hne Hget. run_task. rewrite bool_decide_eq_false_2 by done.
  rewrite Hget. destruct r as [e|snap]; [reflexivity|]. by destruct (snap_exists snap).
Qed.

Lemma truthy_id_string documentId s :
  truthy_id documentId = Some s → documentId = IdString s ∧ s ≠ "".
Proof.
  destruct documentId as [| |s']; simpl; try discriminate.
  case_bool_decide; [discriminate|]. intros [= ->]. done.
Qed.

Lemma maybe_short_circuit ref tx documentId w :
  truthy_id documentId = None →
  getDocumentDataMaybe client ref documentId w = (Returned None, w)
  ∧ getDocumentDataInTransactionMaybe client tx ref documentId w = (Returned None, w).
Proof. intros Hid. run_task. by rewrite Hid. Qed.

End Runs.

(** C1: when the SDK answers the read of [ref.doc(documentId)] with a
    snapshot of a document that does not exist, [getDocumentData] and
    [getDocumentDataInTransaction] fail with the exists-invariant's
    "No document available at <path>/<id>" and return no value. *)
Theorem required_fetch_fails_when_missing {S Q} (client : Client S Q)
  (ref : CollectionReference) (documentId : string) (w : World S Q) :
  (∀ snap s',
     doc_get client (doc ref documentId) (client_state w) = (inr snap, s') →
     snap_exists snap = false →
     getDocumentData client ref documentId w
     = (Failed (InvariantViolation (not_found_message ref documentId)),
        after w s' (CallDocGet (doc ref documentId))))
  ∧
  (∀ tx snap s',
     tx_get_doc client tx (doc ref documentId) (client_state w) = (inr snap, s') →
     snap_exists snap = false →
     getDocumentDataInTransaction client tx ref documentId w
     = (Failed (InvariantViolation (not_found_message ref documentId)),
        after w s' (CallTxGetDoc tx (doc ref documentId)))).
Proof.
  split.
  - intros snap s' Hget Hex.
    rewrite (getDocumentData_run _ _ _ _ _ _ Hget). simpl. by rewrite Hex.
  - intros tx snap s' Hget Hex.
    rewrite (getDocumentDataInTransaction_run _ _ _ _ _ _ _ Hget). simpl. by rewrite Hex.
Qed.

Lemma required_fetch_fails_when_missing_witness :
  snap_exists (read_doc (doc books "b9") sample) = false
  ∧ (getDocumentData memClient books "b9" w0).1
    = Failed (InvariantViolation "No document available at books/b9")
  ∧ (getDocumentDataInTransaction memClient tx1 books "b9" w0).1
    = Failed (InvariantViolation "No document available at books/b9").
Proof.
  split; [reflexivity|].
  destruct (required_fetch_fails_when_missing memClient books "b9" w0) as [Hplain Htx].
  split.
  - rewrite (Hplain (read_doc (doc books "b9") sample) sample); reflexivity.
  - rewrite (Htx tx1 (read_doc (doc books "b9") sample) sample); reflexivity.
Defined.

(** C2: for a non-empty [documentId], when the SDK answers the read with a
    snapshot of a document that does not exist, [getDocumentDataMaybe] and
    [getDocumentDataInTransactionMaybe] return [undefined]; they do not
    fail. *)
Theorem maybe_fetch_undefined_when_missing {S Q} (client : Client S Q)
  (ref : CollectionReference) (documentId : string) (w : World S Q) :
  documentId ≠ "" →
  (∀ snap s',
     doc_get client (doc ref documentId) (client_state w) = (inr snap, s') →
     snap_exists snap = false →
     getDocumentDataMaybe client ref (IdString documentId) w
     = (Returned None, after w s' (CallDocGet (doc ref documentId))))
  ∧
  (∀ tx snap s',
     tx_get_doc client tx (doc ref documentId) (client_state w) = (inr snap, s') →
     snap_exists snap = false →
     getDocumentDataInTransactionMaybe client tx ref (IdString documentId) w
     = (Returned None, after w s' (CallTxGetDoc tx (doc ref documentId)))).
Proof.
  intros Hne. split.
  - intros snap s' Hget Hex.
    rewrite (getDocumentDataMaybe_run _ _ _ _ _ _ Hne Hget). simpl. by rewrite Hex.
  - intros tx snap s' Hget Hex.
    rewrite (getDocumentDataInTransactionMaybe_run _ _ _ _ _ _ _ Hne Hget). simpl.
    by rewrite Hex.
Qed.

Lemma maybe_fetch_undefined_when_missing_witness :
  "b9" ≠ ""
  ∧ snap_exists (read_doc (doc books "b9") sample) = false
  ∧ (getDocumentDataMaybe memClient books (IdString "b9") w0).1 = Returned None
  ∧ (getDocumentDataInTransactionMaybe memClient tx1 books (IdString "b9") w0).1
    = Returned None.
Proof.
  assert (Hne : "b9" ≠ "") by discriminate.
  split; [exact Hne|]. split; [reflexivity|].
  destruct (maybe_fetch_undefined_when_missing memClient books "b9" w0 Hne) as [Hplain Htx].
  split.
  - rewrite (Hplain (read_doc (doc books "b9") sample) sample); reflexivity.
  - rewrite (Htx tx1 (read_doc (doc books "b9") sample) sample); reflexivity.
Defined.

(** C3: for an absent ([undefined]), [null] or empty-string [documentId],
    [getDocumentDataMaybe] and [getDocumentDataInTransactionMaybe] return
    [undefined] and leave the world as it was: the SDK's state is untouched
    and no request is added to the log. *)
Theorem maybe_fetch_short_circuits {S Q} (client : Client S Q)
  (ref : CollectionReference) (tx : Transaction) (documentId : OptionalId)
  (w : World S Q) :
  documentId = IdUndefined ∨ documentId = IdNull ∨ documentId = IdString "" →
  getDocumentDataMaybe client ref documentId w = (Returned None, w)
  ∧ getDocumentDataInTransactionMaybe client tx ref documentId w = (Returned None, w)
  ∧ calls (getDocumentDataMaybe client ref documentId w).2 = calls w
  ∧ calls (getDocumentDataInTransactionMaybe client tx ref documentId w).2 = calls w.
Proof.
  intros Hid.
  assert (Hnone : truthy_id documentId = None)
    by (destruct Hid as [->|[->| ->]]; reflexivity).
  destruct (maybe_short_circuit client ref tx documentId w Hnone) as [H1 H2].
  rewrite H1, H2. done.
Qed.

Lemma maybe_fetch_short_circuits_witness :
  getDocumentDataMaybe (failingClient NetworkError) books (IdString "") w0
  = (Returned None, w0)
  ∧ getDocumentDataInTransactionMaybe (failingClient NetworkError) tx1 books IdNull w0
    = (Returned None, w0).
Proof.
  split.
  - apply (maybe_fetch_short_circuits (failingClient NetworkError) books tx1
             (IdString "") w0). right; right; reflexivity.
  - apply (maybe_fetch_short_circuits (failingClient NetworkError) books tx1
             IdNull w0). right; left; reflexivity.
Defined.

(** C4: for a non-empty [documentId] whose document exists (the SDK
    answers the read with a snapshot that exists), the required-fetch and the
    maybe-fetch accessor make the same request and return the same record,
    the snapshot's [data()]; this holds for [getDocumentData] against
    [getDocumentDataMaybe] and for their transactional counterparts. *)
Theorem required_and_maybe_agree_when_exists {S Q} (client : Client S Q)
  (ref : CollectionReference) (documentId : string) (w : World S Q) :
  documentId ≠ "" →
  (∀ snap s',
     doc_get client (doc ref documentId) (client_state w) = (inr snap, s') →
     snap_exists snap = true →
     getDocumentData client ref documentId w
     = getDocumentDataMaybe client ref (IdString documentId) w
     ∧ (getDocumentData client ref documentId w).1 = Returned (snap_data snap))
  ∧
  (∀ tx snap s',
     tx_get_doc client tx (doc ref documentId) (client_state w) = (inr snap, s') →
     snap_exists snap = true →
     getDocumentDataInTransaction client tx ref documentId w
     = getDocumentDataInTransactionMaybe client tx ref (IdString documentId) w
     ∧ (getDocumentDataInTransaction client tx ref documentId w).1
       = Returned (snap_data snap)).
Proof.
  intros Hne. split.
  - intros snap s' Hget Hex.
    rewrite (getDocumentData_run _ _ _ _ _ _ Hget),
      (getDocumentDataMaybe_run _ _ _ _ _ _ Hne Hget).
    simpl. by rewrite Hex.
  - intros tx snap s' Hget Hex.
    rewrite (getDocumentDataInTransaction_run _ _ _ _ _ _ _ Hget),
      (getDocumentDataInTransactionMaybe_run _ _ _ _ _ _ _ Hne Hget).
    simpl. by rewrite Hex.
Qed.

Lemma required_and_maybe_agree_when_exists_witness :
  "b1" ≠ ""
  ∧ snap_exists (read_doc (doc books "b1") sample) = true
  ∧ getDocumentData memClient books "b1" w0
    = getDocumentDataMaybe memClient books (IdString "b1") w0
  ∧ (getDocumentData memClient books "b1" w0).1
    = Returned (Some (book "Dune" "Herbert" true))
  ∧ getDocumentDataInTransaction memClient tx1 books "b1" w0
    = getDocumentDataInTransactionMaybe memClient tx1 books (IdString "b1") w0.
Proof.
  assert (Hne : "b1" ≠ "") by discriminate.
  split; [exact Hne|]. split; [reflexivity|].
  destruct (required_and_maybe_agree_when_exists memClient books "b1" w0 Hne)
    as [Hplain Htx].
  destruct (Hplain (read_doc (doc books "b1") sample) sample eq_refl eq_refl)
    as [Hsame Hdata].
  destruct (Htx tx1 (read_doc (doc books "b1") sample) sample eq_refl eq_refl)
    as [Hsame_tx _].
  split; [exact Hsame|]. split; [|exact Hsame_tx].
  rewrite Hdata. reflexivity.
Defined.

(** C7: given the same answer from the SDK (a snapshot, existing or not, or
    a failure) to the read of [ref.doc(documentId)], the transactional
    accessors produce the same outcome as the plain ones: the same data, the
    same not-found failure, the same [undefined]. They differ in the request
    only, which goes through [tx.get] instead of the reference's own [get]. *)
Theorem transactional_accessors_agree {S Q} (client : Client S Q)
  (tx : Transaction) (ref : CollectionReference) (w : World S Q) :
  (∀ documentId r s1 s2,
     doc_get client (doc ref documentId) (client_state w) = (r, s1) →
     tx_get_doc client tx (doc ref documentId) (client_state w) = (r, s2) →
     (getDocumentDataInTransaction client tx ref documentId w).1
     = (getDocumentData client ref documentId w).1
     ∧ calls (getDocumentData client ref documentId w).2
       = calls w ++ [CallDocGet (doc ref documentId)]
     ∧ calls (getDocumentDataInTransaction client tx ref documentId w).2
       = calls w ++ [CallTxGetDoc tx (doc ref documentId)])
  ∧
  (∀ documentId,
     (∀ id, truthy_id documentId = Some id →
            ∃ r s1 s2,
              doc_get client (doc ref id) (client_state w) = (r, s1)
              ∧ tx_get_doc client tx (doc ref id) (client_state w) = (r, s2)) →
     (getDocumentDataInTransactionMaybe client tx ref documentId w).1
     = (getDocumentDataMaybe client ref documentId w).1
     ∧ calls (getDocumentDataMaybe client ref documentId w).2
       = calls w ++ maybe_requests CallDocGet ref documentId
     ∧ calls (getDocumentDataInTransactionMaybe client tx ref documentId w).2
       = calls w ++ maybe_requests (CallTxGetDoc tx) ref documentId).
Proof.
  split.
  - intros documentId r s1 s2 Hget Htx.
    rewrite (getDocumentData_run _ _ _ _ _ _ Hget),
      (getDocumentDataInTransaction_run _ _ _ _ _ _ _ Htx). done.
  - intros documentId Hread. unfold maybe_requests.
    destruct (truthy_id documentId) as [id|] eqn:Hid.
    + destruct (Hread id eq_refl) as (r & s1 & s2 & Hget & Htx).
      destruct (truthy_id_string _ _ Hid) as [-> Hne].
      rewrite (getDocumentDataMaybe_run _ _ _ _ _ _ Hne Hget),
        (getDocumentDataInTransactionMaybe_run _ _ _ _ _ _ _ Hne Htx). done.
    + destruct (maybe_short_circuit client ref tx documentId w Hid) as [-> ->].
      simpl. by rewrite app_nil_r.
Qed.

Lemma transactional_accessors_agree_witness :
  (getDocumentDataInTransaction memClient tx1 books "b2" w0).1
  = (getDocumentData memClient books "b2" w0).1
  ∧ (getDocumentDataInTransaction memClient tx1 books "b9" w0).1
    = (getDocumentData memClient books "b9" w0).1
  ∧ (getDocumentDataInTransactionMaybe memClient tx1 books (IdString "b9") w0).1
    = (getDocumentDataMaybe memClient books (IdString "b9") w0).1.
Proof.
  destruct (transactional_accessors_agree memClient tx1 books w0) as [Hreq Hmaybe].
  split; [|split].
  - apply (Hreq "b2" (inr (read_doc (doc books "b2") sample)) sample sample);
      reflexivity.
  - apply (Hreq "b9" (inr (read_doc (doc books "b9") sample)) sample sample);
      reflexivity.
  - apply (Hmaybe (IdString "b9")). intros id _.
    exists (inr (read_doc (doc books id) sample)), sample, sample.
    split; reflexivity.
Defined.

End DocumentDataProperties.

(** ** Properties of the first-document accessors *)

Module QueryProperties.
Import Firestore TypedFirestore MemFirestore.

Ltac run_query_task :=
  unfold getFirstDocument, getFirstDocumentInTransaction, get_query, tx_get_q,
    request, request_outcome, bind, ret, throw, after, first_outcome; simpl.

Section Runs.
Context {S Q : Type} (client : Client S Q).

Lemma getFirstDocument_run (ref : CollectionReference) queryFn options
  (w : World S Q) r s' :
  query_get client (q_limit client (finalQuery client ref queryFn options) 1)
    (client_state w) = (r, s') →
  getFirstDocument client ref queryFn options w
  = (first_outcome (makeMutableDocument client) r,
     after w s' (CallQueryGet (q_limit client (finalQuery client ref queryFn options) 1))).
Proof.
  intros Hget. run_query_task. rewrite Hget.
  destruct r as [e|snapshot]; [reflexivity|].
  destruct (qs_empty snapshot); [reflexivity|].
  by destruct (qs_docs snapshot !! 0%nat).
Qed.

Lemma getFirstDocumentInTransaction_run tx (ref : CollectionReference + CollectionGroup)
  queryFn options (w : World S Q) r s' :
  tx_get_query client tx (q_limit client (finalQuery client ref queryFn options) 1)
    (client_state w) = (r, s') →
  getFirstDocumentInTransaction client tx ref queryFn options w
  = (first_outcome (λ doc, makeMutableDocumentInTransaction client doc tx) r,
     after w s'
       (CallTxGetQuery tx (q_limit client (finalQuery client ref queryFn options) 1))).
Proof.
  intros Hget. run_query_task. rewrite Hget.
  destruct r as [e|snapshot]; [reflexivity|].
  destruct (qs_empty snapshot); [reflexivity|].
  by destruct (qs_docs snapshot !! 0%nat).
Qed.

Lemma first_outcome_prefix {D} (wrap : DocumentSnapshot → D) (matches : list DocumentSnapshot) :
  first_outcome wrap (inr (query_snapshot (take 1 matches))) = Returned (wrap <$> head matches).
Proof. by destruct matches. Qed.

End Runs.

(** C5: [getFirstDocument] requests the final query capped by [limit(1)].
    With [matches] the documents the final query matches, in query order,
    and the SDK answering the capped query with their first-one prefix: when
    [matches] is empty the result is [undefined], not a failure; otherwise it
    is the wrapper of the first element of [matches], and only of that one.
    The same holds for [getFirstDocumentInTransaction]. *)
Theorem getFirstDocument_first_match {S Q} (client : Client S Q) (w : World S Q)
  (options : Options) (matches : list DocumentSnapshot) :
  (∀ (ref : CollectionReference) queryFn s',
     query_get client (q_limit client (finalQuery client ref queryFn options) 1)
       (client_state w) = (inr (query_snapshot (take 1 matches)), s') →
     getFirstDocument client ref queryFn options w
     = (Returned (makeMutableDocument client <$> head matches),
        after w s'
          (CallQueryGet (q_limit client (finalQuery client ref queryFn options) 1))))
  ∧
  (∀ tx (ref : CollectionReference + CollectionGroup) queryFn s',
     tx_get_query client tx (q_limit client (finalQuery client ref queryFn options) 1)
       (client_state w) = (inr (query_snapshot (take 1 matches)), s') →
     getFirstDocumentInTransaction client tx ref queryFn options w
     = (Returned ((λ doc, makeMutableDocumentInTransaction client doc tx) <$> head matches),
        after w s'
          (CallTxGetQuery tx
             (q_limit client (finalQuery client ref queryFn options) 1)))).
Proof.
  split.
  - intros ref queryFn s' Hget.
    rewrite (getFirstDocument_run _ _ _ _ _ _ _ Hget). by rewrite first_outcome_prefix.
  - intros tx ref queryFn s' Hget.
    rewrite (getFirstDocumentInTransaction_run _ _ _ _ _ _ _ _ Hget).
    by rewrite first_outcome_prefix.
Qed.

Lemma getFirstDocument_first_match_witness :
  getFirstDocument memClient books (mem_where "author" (FString "Austen") ∘ mem_collection)
    default_options w0
  = (Returned (Some (makeMutableDocument memClient
                       (stored_snapshot (doc books "b2", book "Emma" "Austen" true)))),
     after w0 sample
       (CallQueryGet
          (mem_limit (mem_where "author" (FString "Austen") (mem_collection books)) 1)))
  ∧ (getFirstDocument memClient users (mem_where "name" (FString "Bob") ∘ mem_collection)
       default_options w0).1
    = Returned None.
Proof.
  split.
  - apply (getFirstDocument_first_match memClient w0 default_options
             [stored_snapshot (doc books "b2", book "Emma" "Austen" true)]).
    vm_compute. reflexivity.
  - rewrite (proj1 (getFirstDocument_first_match memClient w0 default_options [])
               users (mem_where "name" (FString "Bob") ∘ mem_collection) sample).
    + reflexivity.
    + vm_compute. reflexivity.
Defined.

(** The keys a field mask leaves in a record. *)
Lemma dom_project_data (fields : list string) (data : DocumentData) :
  dom (filter (λ kv, kv.1 ∈ fields) data) = list_to_set fields ∩ dom data.
Proof.
  apply set_eq. intros k.
  rewrite elem_of_intersection, elem_of_list_to_set, !elem_of_dom.
  unfold is_Some. split.
  - intros [v Hv]. apply map_lookup_filter_Some in Hv as [Hk Hin]. eauto.
  - intros [Hin [v Hk]]. exists v. by apply map_lookup_filter_Some.
Qed.

(** C6: a fetch with [options.select = fields] requests the query with the
    SDK's field selection applied to exactly [fields] (and capped at one
    result).  With [fields] among the fields of [T], the matched documents
    carrying the fields of [T], and the SDK answering with the masked
    documents, the data of the returned wrapper has exactly the keys in
    [fields]. *)
Theorem projected_fetch_keys {S Q} (client : Client S Q) (w : World S Q)
  (ref : CollectionReference) (queryFn : CollectionReference → Q)
  (fields : list string) (fieldsT : gset string)
  (matches : list DocumentSnapshot) (s' : S) :
  list_to_set fields ⊆ fieldsT →
  (∀ d, d ∈ matches → ∃ data, snap_data d = Some data ∧ dom data = fieldsT) →
  query_get client (q_limit client (q_select client (queryFn ref) fields) 1)
    (client_state w)
  = (inr (query_snapshot (take 1 (project fields <$> matches))), s') →
  ∃ result,
    getFirstDocument client ref queryFn {| select := Some fields |} w
    = (Returned result,
       after w s'
         (CallQueryGet (q_limit client (q_select client (queryFn ref) fields) 1)))
    ∧ (result = None ↔ matches = [])
    ∧ ∀ m, result = Some m →
           ∃ data, md_data m = Some data ∧ dom data = list_to_set fields.
Proof.
  intros Hsub Hconf Hget.
  exists (makeMutableDocument client <$> head (project fields <$> matches)).
  split; [|split].
  - rewrite (getFirstDocument_run client ref queryFn {| select := Some fields |} w _ _ Hget).
    by rewrite first_outcome_prefix.
  - destruct matches; simpl; split; done.
  - intros m Hm. destruct matches as [|d rest]; [discriminate|].
    simpl in Hm. injection Hm as <-.
    destruct (Hconf d) as (data & Hdata & Hdom); [by left|].
    exists (filter (λ kv, kv.1 ∈ fields) data). split.
    + simpl. by rewrite Hdata.
    + rewrite dom_project_data, Hdom. set_solver.
Qed.

Lemma projected_fetch_keys_witness :
  ∃ result,
    getFirstDocument memClient books mem_collection
      {| select := Some ["title"; "author"] |} w0
    = (Returned result,
       after w0 sample
         (CallQueryGet (mem_limit (mem_select (mem_collection books) ["title"; "author"]) 1)))
    ∧ (result = None ↔ matching (mem_collection books) sample = [])
    ∧ ∀ m, result = Some m →
           ∃ data, md_data m = Some data
                   ∧ dom data = list_to_set ["title"; "author"].
Proof.
  apply (projected_fetch_keys memClient w0 books mem_collection ["title"; "author"]
           {[ "title"; "author"; "is_published" ]}
           (matching (mem_collection books) sample) sample).
  - set_solver.
  - intros d Hd. vm_compute in Hd.
    apply elem_of_cons in Hd as [->|Hd]; [|apply elem_of_cons in Hd as [->|Hd]].
    + eexists. split; [reflexivity|]. vm_compute. reflexivity.
    + eexists. split; [reflexivity|]. vm_compute. reflexivity.
    + by apply elem_of_nil in Hd.
  - vm_compute. reflexivity.
Defined.

(** The in-memory SDK honours the two builders the library relies on. *)
Lemma mem_limit_prefix (q : MemQuery) (n : nat) (s : MemState) :
  mq_limit q = None → run_query (mem_limit q n) s = take n (run_query q s).
Proof. unfold run_query. simpl. by intros ->. Qed.

Lemma mem_select_masks (q : MemQuery) (fields : list string) (s : MemState) :
  mq_select q = None → mq_limit q = None →
  run_query (mem_select q fields) s = project fields <$> run_query q s.
Proof. unfold run_query. simpl. by intros -> ->. Qed.

(** So on the in-memory SDK the first document is the head of what the
    final query matches, whatever the database holds. *)
Lemma mem_getFirstDocument (ref : CollectionReference)
  (queryFn : CollectionReference → MemQuery) (options : Options)
  (w : World MemState MemQuery) :
  mq_limit (finalQuery memClient ref queryFn options) = None →
  (getFirstDocument memClient ref queryFn options w).1
  = Returned (makeMutableDocument memClient
                <$> head (run_query (finalQuery memClient ref queryFn options)
                            (client_state w))).
Proof.
  intros Hlimit.
  rewrite (getFirstDocument_run memClient ref queryFn options w
             (inr (query_snapshot
                     (run_query (mem_limit (finalQuery memClient ref queryFn options) 1)
                        (client_state w))))
             (client_state w) eq_refl).
  simpl. rewrite (mem_limit_prefix _ _ _ Hlimit). apply first_outcome_prefix.
Qed.

End QueryProperties.

(** ** Failures of the SDK *)

Module FailureProperties.
Import Firestore TypedFirestore MemFirestore.
Import DocumentDataProperties QueryProperties.

(** C8: when the read an accessor makes is refused by the SDK with an error
    [e] (a network error, a transaction conflict, a permission error, ...),
    the accessor fails with that same [e]: it is neither caught, nor
    translated, nor replaced by a default.  This holds for the four
    single-document accessors and the two first-document accessors. *)
Theorem client_failures_propagate {S Q} (client : Client S Q) (w : World S Q)
  (e : ClientError) :
  (∀ ref documentId s',
     doc_get client (doc ref documentId) (client_state w) = (inl e, s') →
     getDocumentData client ref documentId w
     = (Failed (ClientFailure e), after w s' (CallDocGet (doc ref documentId))))
  ∧
  (∀ ref documentId s',
     documentId ≠ "" →
     doc_get client (doc ref documentId) (client_state w) = (inl e, s') →
     getDocumentDataMaybe client ref (IdString documentId) w
     = (Failed (ClientFailure e), after w s' (CallDocGet (doc ref documentId))))
  ∧
  (∀ tx ref documentId s',
     tx_get_doc client tx (doc ref documentId) (client_state w) = (inl e, s') →
     getDocumentDataInTransaction client tx ref documentId w
     = (Failed (ClientFailure e), after w s' (CallTxGetDoc tx (doc ref documentId))))
  ∧
  (∀ tx ref documentId s',
     documentId ≠ "" →
     tx_get_doc client tx (doc ref documentId) (client_state w) = (inl e, s') →
     getDocumentDataInTransactionMaybe client tx ref (IdString documentId) w
     = (Failed (ClientFailure e), after w s' (CallTxGetDoc tx (doc ref documentId))))
  ∧
  (∀ (ref : CollectionReference) queryFn options s',
     query_get client (q_limit client (finalQuery client ref queryFn options) 1)
       (client_state w) = (inl e, s') →
     getFirstDocument client ref queryFn options w
     = (Failed (ClientFailure e),
        after w s'
          (CallQueryGet (q_limit client (finalQuery client ref queryFn options) 1))))
  ∧
  (∀ tx (ref : CollectionReference + CollectionGroup) queryFn options s',
     tx_get_query client tx (q_limit client (finalQuery client ref queryFn options) 1)
       (client_state w) = (inl e, s') →
     getFirstDocumentInTransaction client tx ref queryFn options w
     = (Failed (ClientFailure e),
        after w s'
          (CallTxGetQuery tx
             (q_limit client (finalQuery client ref queryFn options) 1)))).
Proof.
  repeat split.
  - intros ref documentId s' Hget.
    by rewrite (getDocumentData_run _ _ _ _ _ _ Hget).
  - intros ref documentId s' Hne Hget.
    by rewrite (getDocumentDataMaybe_run _ _ _ _ _ _ Hne Hget).
  - intros tx ref documentId s' Hget.
    by rewrite (getDocumentDataInTransaction_run _ _ _ _ _ _ _ Hget).
  - intros tx ref documentId s' Hne Hget.
    by rewrite (getDocumentDataInTransactionMaybe_run _ _ _ _ _ _ _ Hne Hget).
  - intros ref queryFn options s' Hget.
    by rewrite (getFirstDocument_run _ _ _ _ _ _ _ Hget).
  - intros tx ref queryFn options s' Hget.
    by rewrite (getFirstDocumentInTransaction_run _ _ _ _ _ _ _ _ Hget).
Qed.

Lemma client_failures_propagate_witness :
  (getDocumentData (failingClient PermissionDenied) books "b1" w0).1
  = Failed (ClientFailure PermissionDenied)
  ∧ (getDocumentDataMaybe (failingClient NetworkError) books (IdString "b1") w0).1
    = Failed (ClientFailure NetworkError)
  ∧ (getDocumentDataInTransaction (failingClient TransactionConflict) tx1 books "b1" w0).1
    = Failed (ClientFailure TransactionConflict)
  ∧ (getFirstDocument (failingClient NetworkError) books mem_collection
       default_options w0).1
    = Failed (ClientFailure NetworkError).
Proof.
  split; [|split; [|split]].
  - destruct (client_failures_propagate (failingClient PermissionDenied) w0
                PermissionDenied) as (H & _).
    rewrite (H books "b1" sample eq_refl). reflexivity.
  - destruct (client_failures_propagate (failingClient NetworkError) w0
                NetworkError) as (_ & H & _).
    rewrite (H books "b1" sample); [reflexivity|discriminate|reflexivity].
  - destruct (client_failures_propagate (failingClient TransactionConflict) w0
                TransactionConflict) as (_ & _ & H & _).
    rewrite (H tx1 books "b1" sample eq_refl). reflexivity.
  - destruct (client_failures_propagate (failingClient NetworkError) w0
                NetworkError) as (_ & _ & _ & _ & H & _).
    rewrite (H books mem_collection default_options sample eq_refl). reflexivity.
Defined.

End FailureProperties.

(** ** Writes through the document wrappers *)

Module WrapperProperties.
Import Firestore TypedFirestore MemFirestore.

Lemma filter_direct_write_tx {Q} (log : list (Call Q)) tx d data :
  List.filter is_direct_write (log ++ [CallTxUpdate tx d data])
  = List.filter is_direct_write log.
Proof. rewrite List.filter_app. simpl. apply app_nil_r. Qed.

(** Nothing is requested when a wrapper is built. *)
Lemma construction_is_silent {S Q} (client : Client S Q) doc tx :
  mt_ref (makeMutableDocumentInTransaction client doc tx) = snap_ref doc
  ∧ mt_id (makeMutableDocumentInTransaction client doc tx) = snap_id doc
  ∧ mt_data (makeMutableDocumentInTransaction client doc tx) = snap_data doc
  ∧ md_data (makeMutableDocument client doc) = snap_data doc.
Proof. done. Qed.

(** Without a transaction, [update] writes through the reference at once. *)
Lemma plain_update_writes_directly {S Q} (client : Client S Q) doc data (w : World S Q) :
  calls (md_update (makeMutableDocument client doc) data w).2
  = calls w ++ [CallDocUpdate (snap_ref doc) data].
Proof.
  unfold makeMutableDocument, update_doc, request. simpl.
  by destruct (doc_update client (snap_ref doc) data (client_state w)).
Qed.

(** C9: [update] of a wrapper bound to the transaction [tx] makes exactly
    one request, the SDK's [tx.update(ref, data)] on the bound transaction,
    and returns what that call returns, the transaction; no direct write is
    added to the log.  Whatever part of the SDK's state [tx.update] leaves
    alone (the committed data, which the SDK changes at commit only) is
    left alone by the wrapper's [update] too. *)
Theorem transactional_update_is_staged {S Q} (client : Client S Q)
  (doc : DocumentSnapshot) (tx : Transaction) (data : UpdateData) (w : World S Q) :
  mt_update (makeMutableDocumentInTransaction client doc tx) data w
  = (request_outcome (tx_update client tx (snap_ref doc) data (client_state w)).1,
     after w (tx_update client tx (snap_ref doc) data (client_state w)).2
       (CallTxUpdate tx (snap_ref doc) data))
  ∧ List.filter is_direct_write
      (calls (mt_update (makeMutableDocumentInTransaction client doc tx) data w).2)
    = List.filter is_direct_write (calls w)
  ∧ (∀ s',
       tx_update client tx (snap_ref doc) data (client_state w) = (inr tx, s') →
       (mt_update (makeMutableDocumentInTransaction client doc tx) data w).1
       = Returned tx)
  ∧ (∀ (V : Type) (committed : S → V),
       committed (tx_update client tx (snap_ref doc) data (client_state w)).2
       = committed (client_state w) →
       committed
         (client_state (mt_update (makeMutableDocumentInTransaction client doc tx) data w).2)
       = committed (client_state w)).
Proof.
  assert (Hrun :
    mt_update (makeMutableDocumentInTransaction client doc tx) data w
    = (request_outcome (tx_update client tx (snap_ref doc) data (client_state w)).1,
       after w (tx_update client tx (snap_ref doc) data (client_state w)).2
         (CallTxUpdate tx (snap_ref doc) data))).
  { unfold makeMutableDocumentInTransaction, update_tx, request, request_outcome. simpl.
    by destruct (tx_update client tx (snap_ref doc) data (client_state w)) as [[e|t] s']. }
  rewrite Hrun. split; [reflexivity|]. split; [|split].
  - simpl. apply filter_direct_write_tx.
  - intros s' Htx. simpl. by rewrite Htx.
  - intros V committed Hkeep. simpl. exact Hkeep.
Qed.

Lemma transactional_update_is_staged_witness :
  (mt_update (makeMutableDocumentInTransaction memClient
                (read_doc (doc books "b1") sample) tx1) retitle w0).1
  = Returned tx1
  ∧ store (client_state
             (mt_update (makeMutableDocumentInTransaction memClient
                           (read_doc (doc books "b1") sample) tx1) retitle w0).2)
    = store sample.
Proof.
  destruct (transactional_update_is_staged memClient
              (read_doc (doc books "b1") sample) tx1 retitle w0)
    as (_ & _ & Hret & Hkeep).
  split.
  - apply (Hret (mem_tx_update tx1 (doc books "b1") retitle sample).2). reflexivity.
  - apply (Hkeep _ store). reflexivity.
Defined.

(** On the in-memory SDK: the staged write leaves the stored record as it
    was and reaches it when the transaction commits, while the wrapper
    without a transaction writes at once. *)
Example staged_write_applied_at_commit :
  let staged_world :=
    (mt_update (makeMutableDocumentInTransaction memClient
                  (read_doc (doc books "b1") sample) tx1) retitle w0).2 in
  lookup_doc (doc books "b1") (store (client_state staged_world))
  = Some (book "Dune" "Herbert" true)
  ∧ lookup_doc (doc books "b1") (store (commit tx1 (client_state staged_world)))
    = Some (book "Dune II" "Herbert" true)
  ∧ lookup_doc (doc books "b1")
      (store (client_state
                (md_update (makeMutableDocument memClient
                              (read_doc (doc books "b1") sample)) retitle w0).2))
    = Some (book "Dune II" "Herbert" true).
Proof. vm_compute. repeat split; reflexivity. Qed.

End WrapperProperties.

(** ** Further properties of the single-document accessors *)

Module AccessorProperties.
Import Firestore TypedFirestore MemFirestore Observations.
Import DocumentDataProperties.

Section Answers.
Context {S Q : Type} (client : Client S Q).
Implicit Types (ref : CollectionReference) (tx : Transaction) (w : World S Q).

(** Each accessor in terms of the SDK's answer to its one read. *)
Lemma getDocumentData_answer ref documentId w :
  getDocumentData client ref documentId w
  = (required_outcome ref documentId
       (doc_get client (doc ref documentId) (client_state w)).1,
     after w (doc_get client (doc ref documentId) (client_state w)).2
       (CallDocGet (doc ref documentId))).
Proof. apply getDocumentData_run. apply surjective_pairing. Qed.

Lemma getDocumentDataInTransaction_answer tx ref documentId w :
  getDocumentDataInTransaction client tx ref documentId w
  = (required_outcome ref documentId
       (tx_get_doc client tx (doc ref documentId) (client_state w)).1,
     after w (tx_get_doc client tx (doc ref documentId) (client_state w)).2
       (CallTxGetDoc tx (doc ref documentId))).
Proof. apply getDocumentDataInTransaction_run. apply surjective_pairing. Qed.

Lemma getDocumentDataMaybe_answer ref documentId w :
  documentId ≠ "" →
  getDocumentDataMaybe client ref (IdString documentId) w
  = (maybe_outcome (doc_get client (doc ref documentId) (client_state w)).1,
     after w (doc_get client (doc ref documentId) (client_state w)).2
       (CallDocGet (doc ref documentId))).
Proof. intros Hne. apply getDocumentDataMaybe_run; [done|]. apply surjective_pairing. Qed.

Lemma getDocumentDataInTransactionMaybe_answer tx ref documentId w :
  documentId ≠ "" →
  getDocumentDataInTransactionMaybe client tx ref (IdString documentId) w
  = (maybe_outcome (tx_get_doc client tx (doc ref documentId) (client_state w)).1,
     after w (tx_get_doc client tx (doc ref documentId) (client_state w)).2
       (CallTxGetDoc tx (doc ref documentId))).
Proof.
  intros Hne. apply getDocumentDataInTransactionMaybe_run; [done|].
  apply surjective_pairing.
Qed.

Lemma maybe_is_required_outcome ref documentId r :
  maybe_outcome r = absent_as_undefined (required_outcome ref documentId r).
Proof. destruct r as [e|snap]; [done|]. simpl. by destruct (snap_exists snap). Qed.

Lemma truthy_id_none documentId : truthy_id documentId = None ↔ falsy_id documentId.
Proof.
  unfold falsy_id. destruct documentId as [| |s]; simpl.
  - split; auto.
  - split; auto.
  - case_bool_decide as Hs.
    + subst s. split; auto.
    + split; [discriminate|]. intros [?|[?|[= ?]]]; done.
Qed.

Lemma log_grows {A} (log : list A) (c : A) : log ++ [c] ≠ log.
Proof.
  intros Heq. apply (f_equal length) in Heq. rewrite length_app in Heq.
  simpl in Heq. lia.
Qed.

Lemma writes_after_read (log : list (Call Q)) (c : Call Q) :
  is_write c = false → writes (log ++ [c]) = writes log.
Proof.
  intros Hc. unfold writes. rewrite List.filter_app. simpl. rewrite Hc.
  apply app_nil_r.
Qed.

End Answers.

(** X1: for a non-empty id and whatever the SDK answers, the maybe-fetch
    accessor ends as the required-fetch accessor does, except that the
    failure of the exists-invariant becomes [undefined]: same request, same
    state of the SDK, same data, same SDK failure.  This holds for the plain
    and for the transactional pair. *)
Theorem maybe_fetch_is_required_fetch_without_not_found {S Q} (client : Client S Q)
  (tx : Transaction) (ref : CollectionReference) (documentId : string)
  (w : World S Q) :
  documentId ≠ "" →
  getDocumentDataMaybe client ref (IdString documentId) w
  = (absent_as_undefined (getDocumentData client ref documentId w).1,
     (getDocumentData client ref documentId w).2)
  ∧ getDocumentDataInTransactionMaybe client tx ref (IdString documentId) w
    = (absent_as_undefined (getDocumentDataInTransaction client tx ref documentId w).1,
       (getDocumentDataInTransaction client tx ref documentId w).2).
Proof.
  intros Hne. split.
  - rewrite getDocumentData_answer, (getDocumentDataMaybe_answer _ _ _ _ Hne). simpl.
    by rewrite (maybe_is_required_outcome ref documentId).
  - rewrite getDocumentDataInTransaction_answer,
      (getDocumentDataInTransactionMaybe_answer _ _ _ _ _ Hne). simpl.
    by rewrite (maybe_is_required_outcome ref documentId).
Qed.

Lemma maybe_fetch_is_required_fetch_without_not_found_witness :
  "b9" ≠ ""
  ∧ (getDocumentData memClient books "b9" w0).1
    = Failed (InvariantViolation "No document available at books/b9")
  ∧ getDocumentDataMaybe memClient books (IdString "b9") w0
    = (Returned None, (getDocumentData memClient books "b9" w0).2)
  ∧ getDocumentDataInTransactionMaybe (failingClient NetworkError) tx1 books
      (IdString "b1") w0
    = getDocumentDataInTransaction (failingClient NetworkError) tx1 books "b1" w0.
Proof.
  assert (H9 : "b9" ≠ "") by discriminate.
  assert (H1 : "b1" ≠ "") by discriminate.
  split; [exact H9|]. split; [reflexivity|]. split.
  - rewrite (proj1 (maybe_fetch_is_required_fetch_without_not_found
                      memClient tx1 books "b9" w0 H9)). reflexivity.
  - rewrite (proj2 (maybe_fetch_is_required_fetch_without_not_found
                      (failingClient NetworkError) tx1 books "b1" w0 H1)). reflexivity.
Defined.

(** X2: the maybe-fetch accessors leave the request log as it was exactly
    when the id argument is [undefined], [null] or the empty string; every
    other string, whatever it spells, costs a request. *)
Theorem maybe_fetch_skips_request_iff_falsy {S Q} (client : Client S Q)
  (tx : Transaction) (ref : CollectionReference) (documentId : OptionalId)
  (w : World S Q) :
  (calls (getDocumentDataMaybe client ref documentId w).2 = calls w
   ↔ falsy_id documentId)
  ∧ (calls (getDocumentDataInTransactionMaybe client tx ref documentId w).2 = calls w
     ↔ falsy_id documentId).
Proof.
  rewrite <- truthy_id_none.
  destruct (truthy_id documentId) as [id|] eqn:Hid.
  - destruct (truthy_id_string _ _ Hid) as [-> Hne].
    rewrite (getDocumentDataMaybe_answer _ _ _ _ Hne),
      (getDocumentDataInTransactionMaybe_answer _ _ _ _ _ Hne). simpl.
    split; (split; [intros Hlog; by apply log_grows in Hlog|discriminate]).
  - destruct (maybe_short_circuit client ref tx documentId w Hid) as [-> ->].
    simpl. done.
Qed.

(** X3: a maybe-fetch accessor has no failure of its own: when it fails, the
    id was truthy, the SDK refused the read of that document with some error
    [e], and the failure is that [e]. *)
Theorem maybe_fetch_fails_only_by_client {S Q} (client : Client S Q)
  (tx : Transaction) (ref : CollectionReference) (documentId : OptionalId)
  (w : World S Q) (f : Failure) :
  ((getDocumentDataMaybe client ref documentId w).1 = Failed f →
   ∃ id e, truthy_id documentId = Some id
           ∧ (doc_get client (doc ref id) (client_state w)).1 = inl e
           ∧ f = ClientFailure e)
  ∧
  ((getDocumentDataInTransactionMaybe client tx ref documentId w).1 = Failed f →
   ∃ id e, truthy_id documentId = Some id
           ∧ (tx_get_doc client tx (doc ref id) (client_state w)).1 = inl e
           ∧ f = ClientFailure e).
Proof.
  destruct (truthy_id documentId) as [id|] eqn:Hid.
  - destruct (truthy_id_string _ _ Hid) as [-> Hne].
    rewrite (getDocumentDataMaybe_answer _ _ _ _ Hne),
      (getDocumentDataInTransactionMaybe_answer _ _ _ _ _ Hne). simpl.
    split.
    + destruct (doc_get client (doc ref id) (client_state w)).1 as [e|snap] eqn:Hr;
        simpl.
      * intros [= <-]. by exists id, e.
      * by destruct (snap_exists snap).
    + destruct (tx_get_doc client tx (doc ref id) (client_state w)).1 as [e|snap] eqn:Hr;
        simpl.
      * intros [= <-]. by exists id, e.
      * by destruct (snap_exists snap).
  - destruct (maybe_short_circuit client ref tx documentId w Hid) as [-> ->].
    simpl. split; discriminate.
Qed.

Lemma maybe_fetch_fails_only_by_client_witness :
  (getDocumentDataMaybe (failingClient PermissionDenied) books (IdString "b1") w0).1
  = Failed (ClientFailure PermissionDenied)
  ∧ ∃ id e, truthy_id (IdString "b1") = Some id
            ∧ (doc_get (failingClient PermissionDenied) (doc books id) sample).1 = inl e
            ∧ ClientFailure PermissionDenied = ClientFailure e.
Proof.
  split; [reflexivity|].
  apply (proj1 (maybe_fetch_fails_only_by_client (failingClient PermissionDenied)
                  tx1 books (IdString "b1") w0 (ClientFailure PermissionDenied))).
  reflexivity.
Defined.

Lemma required_outcome_returned (ref : CollectionReference) (documentId : string)
  (r : ClientError + DocumentSnapshot) (data : option DocumentData) :
  required_outcome ref documentId r = Returned data →
  ∃ snap, r = inr snap ∧ snap_exists snap = true ∧ data = snap_data snap.
Proof.
  destruct r as [e|snap]; simpl; [discriminate|].
  destruct (snap_exists snap) eqn:Hex; [|discriminate].
  intros [= <-]. by exists snap.
Qed.

Lemma required_outcome_failed (ref : CollectionReference) (documentId : string)
  (r : ClientError + DocumentSnapshot) (f : Failure) :
  required_outcome ref documentId r = Failed f →
  (∃ e, r = inl e ∧ f = ClientFailure e)
  ∨ (∃ snap, r = inr snap ∧ snap_exists snap = false
             ∧ f = InvariantViolation (not_found_message ref documentId)).
Proof.
  destruct r as [e|snap]; simpl.
  - intros [= <-]. left. by exists e.
  - destruct (snap_exists snap) eqn:Hex; [discriminate|].
    intros [= <-]. right. by exists snap.
Qed.

(** X4: how a required-fetch ended tells what the SDK answered.  A returned
    value means the snapshot existed and the value is its [data()]; a failure
    is either the SDK's own error on the read, unchanged, or the violated
    exists-invariant for a snapshot that does not exist, with the message
    naming this collection path and id.  The same holds in a transaction. *)
Theorem required_fetch_outcome_cases {S Q} (client : Client S Q)
  (tx : Transaction) (ref : CollectionReference) (documentId : string)
  (w : World S Q) :
  (∀ data,
     (getDocumentData client ref documentId w).1 = Returned data →
     ∃ snap, (doc_get client (doc ref documentId) (client_state w)).1 = inr snap
             ∧ snap_exists snap = true ∧ data = snap_data snap)
  ∧
  (∀ f,
     (getDocumentData client ref documentId w).1 = Failed f →
     (∃ e, (doc_get client (doc ref documentId) (client_state w)).1 = inl e
           ∧ f = ClientFailure e)
     ∨ (∃ snap, (doc_get client (doc ref documentId) (client_state w)).1 = inr snap
                ∧ snap_exists snap = false
                ∧ f = InvariantViolation (not_found_message ref documentId)))
  ∧
  (∀ data,
     (getDocumentDataInTransaction client tx ref documentId w).1 = Returned data →
     ∃ snap, (tx_get_doc client tx (doc ref documentId) (client_state w)).1 = inr snap
             ∧ snap_exists snap = true ∧ data = snap_data snap)
  ∧
  (∀ f,
     (getDocumentDataInTransaction client tx ref documentId w).1 = Failed f →
     (∃ e, (tx_get_doc client tx (doc ref documentId) (client_state w)).1 = inl e
           ∧ f = ClientFailure e)
     ∨ (∃ snap, (tx_get_doc client tx (doc ref documentId) (client_state w)).1 = inr snap
                ∧ snap_exists snap = false
                ∧ f = InvariantViolation (not_found_message ref documentId))).
Proof.
  rewrite getDocumentData_answer, getDocumentDataInTransaction_answer. simpl.
  split; [|split; [|split]].
  - intros data. apply required_outcome_returned.
  - intros f. apply required_outcome_failed.
  - intros data. apply required_outcome_returned.
  - intros f. apply required_outcome_failed.
Qed.

Lemma required_fetch_outcome_cases_witness :
  (getDocumentData memClient books "b2" w0).1
  = Returned (Some (book "Emma" "Austen" true))
  ∧ ∃ snap, (doc_get memClient (doc books "b2") sample).1 = inr snap
            ∧ snap_exists snap = true
            ∧ Some (book "Emma" "Austen" true) = snap_data snap.
Proof.
  split; [reflexivity|].
  apply (proj1 (required_fetch_outcome_cases memClient tx1 books "b2" w0)
           (Some (book "Emma" "Austen" true))).
  reflexivity.
Defined.

(** X5: whatever the SDK answers, a required-fetch adds exactly one request
    to the log and a maybe-fetch at most one, and none of the four accessors
    ever adds a write. *)
Theorem single_document_accessors_only_read {S Q} (client : Client S Q)
  (tx : Transaction) (ref : CollectionReference) (w : World S Q) :
  (∀ documentId : string,
     length (calls (getDocumentData client ref documentId w).2)
     = Datatypes.S (length (calls w))
     ∧ length (calls (getDocumentDataInTransaction client tx ref documentId w).2)
       = Datatypes.S (length (calls w))
     ∧ writes (calls (getDocumentData client ref documentId w).2) = writes (calls w)
     ∧ writes (calls (getDocumentDataInTransaction client tx ref documentId w).2)
       = writes (calls w))
  ∧
  (∀ documentId : OptionalId,
     (length (calls (getDocumentDataMaybe client ref documentId w).2)
      ≤ Datatypes.S (length (calls w)))%nat
     ∧ (length (calls (getDocumentDataInTransactionMaybe client tx ref documentId w).2)
        ≤ Datatypes.S (length (calls w)))%nat
     ∧ writes (calls (getDocumentDataMaybe client ref documentId w).2)
       = writes (calls w)
     ∧ writes (calls (getDocumentDataInTransactionMaybe client tx ref documentId w).2)
       = writes (calls w)).
Proof.
  split.
  - intros documentId.
    rewrite getDocumentData_answer, getDocumentDataInTransaction_answer. simpl.
    rewrite !length_app, !writes_after_read by done. simpl.
    repeat split; try reflexivity; lia.
  - intros documentId. destruct (truthy_id documentId) as [id|] eqn:Hid.
    + destruct (truthy_id_string _ _ Hid) as [-> Hne].
      rewrite (getDocumentDataMaybe_answer _ _ _ _ Hne),
        (getDocumentDataInTransactionMaybe_answer _ _ _ _ _ Hne). simpl.
      rewrite !length_app, !writes_after_read by done. simpl.
      repeat split; try reflexivity; lia.
    + destruct (maybe_short_circuit client ref tx documentId w Hid) as [-> ->].
      simpl. repeat split; try reflexivity; lia.
Qed.

End AccessorProperties.

(** ** Further properties of the first-document accessors *)

Module FirstDocumentProperties.
Import Firestore TypedFirestore MemFirestore Observations.
Import QueryProperties AccessorProperties.

Section Answers.
Context {S Q : Type} (client : Client S Q).

Lemma getFirstDocument_answer (ref : CollectionReference) queryFn options
  (w : World S Q) :
  getFirstDocument client ref queryFn options w
  = (first_outcome (makeMutableDocument client)
       (query_get client (q_limit client (finalQuery client ref queryFn options) 1)
          (client_state w)).1,
     after w
       (query_get client (q_limit client (finalQuery client ref queryFn options) 1)
          (client_state w)).2
       (CallQueryGet (q_limit client (finalQuery client ref queryFn options) 1))).
Proof. apply getFirstDocument_run. apply surjective_pairing. Qed.

Lemma getFirstDocumentInTransaction_answer tx
  (ref : CollectionReference + CollectionGroup) queryFn options (w : World S Q) :
  getFirstDocumentInTransaction client tx ref queryFn options w
  = (first_outcome (λ doc, makeMutableDocumentInTransaction client doc tx)
       (tx_get_query client tx
          (q_limit client (finalQuery client ref queryFn options) 1) (client_state w)).1,
     after w
       (tx_get_query client tx
          (q_limit client (finalQuery client ref queryFn options) 1) (client_state w)).2
       (CallTxGetQuery tx (q_limit client (finalQuery client ref queryFn options) 1))).
Proof. apply getFirstDocumentInTransaction_run. apply surjective_pairing. Qed.

Lemma first_outcome_wrap {D} (wrap : DocumentSnapshot → D)
  (r : ClientError + QuerySnapshot) :
  first_outcome wrap r = wrap_outcome wrap (first_outcome id r).
Proof.
  destruct r as [e|snapshot]; [done|]. simpl.
  destruct (qs_empty snapshot); [done|]. by destruct (qs_docs snapshot !! 0%nat).
Qed.

End Answers.

(** X6: whatever the SDK answers, a first-document accessor adds exactly
    one request to the log and never a write.  The request is a read of the
    query capped by [limit(1)]: of [queryFn(ref).select(...fields)] when
    [select] is given, the empty list included, and of [queryFn(ref)] with no
    selection when it is not. *)
Theorem first_document_accessors_only_read {S Q} (client : Client S Q)
  (tx : Transaction) (w : World S Q)
  (ref : CollectionReference) (queryFn : CollectionReference → Q)
  (refTx : CollectionReference + CollectionGroup)
  (queryFnTx : CollectionReference + CollectionGroup → Q) :
  (∀ fields,
     calls (getFirstDocument client ref queryFn {| select := Some fields |} w).2
     = calls w ++ [CallQueryGet (q_limit client (q_select client (queryFn ref) fields) 1)]
     ∧ calls (getFirstDocumentInTransaction client tx refTx queryFnTx
                {| select := Some fields |} w).2
       = calls w
         ++ [CallTxGetQuery tx
               (q_limit client (q_select client (queryFnTx refTx) fields) 1)])
  ∧ calls (getFirstDocument client ref queryFn {| select := None |} w).2
    = calls w ++ [CallQueryGet (q_limit client (queryFn ref) 1)]
  ∧ calls (getFirstDocumentInTransaction client tx refTx queryFnTx
             {| select := None |} w).2
    = calls w ++ [CallTxGetQuery tx (q_limit client (queryFnTx refTx) 1)]
  ∧ (∀ options,
       writes (calls (getFirstDocument client ref queryFn options w).2)
       = writes (calls w)
       ∧ writes (calls (getFirstDocumentInTransaction client tx refTx queryFnTx
                          options w).2)
         = writes (calls w)).
Proof.
  split; [|split; [|split]].
  - intros fields.
    by rewrite getFirstDocument_answer, getFirstDocumentInTransaction_answer.
  - by rewrite getFirstDocument_answer.
  - by rewrite getFirstDocumentInTransaction_answer.
  - intros options.
    rewrite getFirstDocument_answer, getFirstDocumentInTransaction_answer. simpl.
    by rewrite !writes_after_read.
Qed.

(** X7: the result is read off [snapshot.empty] and [snapshot.docs[0]]
    alone.  When the SDK's snapshot is not empty and its documents are
    [d :: rest], the result is the wrapper of [d] whatever [rest] holds, so
    also when the SDK sent more than the one document asked for; when the
    snapshot says it is empty the result is [undefined]. *)
Theorem first_document_is_docs_0 {S Q} (client : Client S Q) (w : World S Q)
  (ref : CollectionReference) (queryFn : CollectionReference → Q)
  (options : Options) :
  (∀ d rest s',
     query_get client (q_limit client (finalQuery client ref queryFn options) 1)
       (client_state w)
     = (inr {| qs_empty := false; qs_docs := d :: rest |}, s') →
     (getFirstDocument client ref queryFn options w).1
     = Returned (Some (makeMutableDocument client d)))
  ∧
  (∀ docs s',
     query_get client (q_limit client (finalQuery client ref queryFn options) 1)
       (client_state w)
     = (inr {| qs_empty := true; qs_docs := docs |}, s') →
     (getFirstDocument client ref queryFn options w).1 = Returned None).
Proof.
  split.
  - intros d rest s' Hget. by rewrite (getFirstDocument_run _ _ _ _ _ _ _ Hget).
  - intros docs s' Hget. by rewrite (getFirstDocument_run _ _ _ _ _ _ _ Hget).
Qed.

Lemma first_document_is_docs_0_witness :
  qs_docs (query_snapshot (run_query (mem_collection books) sample))
  = [stored_snapshot (doc books "b1", book "Dune" "Herbert" true);
     stored_snapshot (doc books "b2", book "Emma" "Austen" true)]
  ∧ (getFirstDocument unlimitedClient books mem_collection default_options w0).1
    = Returned (Some (makeMutableDocument unlimitedClient
                        (stored_snapshot (doc books "b1", book "Dune" "Herbert" true)))).
Proof.
  split; [vm_compute; reflexivity|].
  apply (proj1 (first_document_is_docs_0 unlimitedClient w0 books mem_collection
                  default_options)
           (stored_snapshot (doc books "b1", book "Dune" "Herbert" true))
           [stored_snapshot (doc books "b2", book "Emma" "Austen" true)]
           sample).
  vm_compute. reflexivity.
Defined.

(** X8: given the same answer from the SDK to the capped query, read through
    [query.get()] or through [tx.get(query)], the two first-document
    accessors end alike: both fail with the same failure, or both return
    [undefined], or both return a wrapper, each the one of its kind, of the
    same snapshot. *)
Theorem first_document_transaction_agrees {S Q} (client : Client S Q)
  (tx : Transaction) (w : World S Q)
  (ref : CollectionReference) (queryFn : CollectionReference → Q)
  (refTx : CollectionReference + CollectionGroup)
  (queryFnTx : CollectionReference + CollectionGroup → Q)
  (options : Options) (r : ClientError + QuerySnapshot) (s1 s2 : S) :
  query_get client (q_limit client (finalQuery client ref queryFn options) 1)
    (client_state w) = (r, s1) →
  tx_get_query client tx (q_limit client (finalQuery client refTx queryFnTx options) 1)
    (client_state w) = (r, s2) →
  ∃ found : Outcome (option DocumentSnapshot),
    (getFirstDocument client ref queryFn options w).1
    = wrap_outcome (makeMutableDocument client) found
    ∧ (getFirstDocumentInTransaction client tx refTx queryFnTx options w).1
      = wrap_outcome (λ doc, makeMutableDocumentInTransaction client doc tx) found.
Proof.
  intros Hget Htx. exists (first_outcome id r).
  rewrite (getFirstDocument_run _ _ _ _ _ _ _ Hget),
    (getFirstDocumentInTransaction_run _ _ _ _ _ _ _ _ Htx). simpl.
  split; apply first_outcome_wrap.
Qed.

Lemma first_document_transaction_agrees_witness :
  ∃ found : Outcome (option DocumentSnapshot),
    (getFirstDocument memClient users mem_collection default_options w0).1
    = wrap_outcome (makeMutableDocument memClient) found
    ∧ (getFirstDocumentInTransaction memClient tx1 (inl users) mem_target
         default_options w0).1
      = wrap_outcome (λ doc, makeMutableDocumentInTransaction memClient doc tx1) found.
Proof.
  apply (first_document_transaction_agrees memClient tx1 w0 users mem_collection
           (inl users) mem_target default_options
           (inr (query_snapshot (run_query (mem_limit (mem_collection users) 1) sample)))
           sample sample); reflexivity.
Defined.

End FirstDocumentProperties.

(** ** Further properties of [isPlainObject] *)

Module PlainObjectProperties.
Import Js.

(** X9: for an object that is not callable, [isPlainObject] looks at the
    prototype slot and at nothing else: own properties and being an array do
    not matter.  So an array whose prototype has been set to
    [Object.prototype] or to [null] is taken for a plain object, and an
    object literal whose prototype has been set to anything else is not. *)
Theorem isPlainObject_reads_prototype_only :
  (∀ proto props props',
     isPlainObject (VObject ArrayExotic proto props)
     = isPlainObject (VObject Ordinary proto props'))
  ∧ (∀ proto props,
       isPlainObject (VObject Ordinary proto props)
       = Normal (bool_decide (proto = ProtoRef ObjectPrototype ∨ proto = ProtoNull)))
  ∧ (∀ props, isPlainObject (VObject ArrayExotic (ProtoRef ObjectPrototype) props)
              = Normal true)
  ∧ (∀ props, isPlainObject (VObject ArrayExotic ProtoNull props) = Normal true)
  ∧ (∀ props, isPlainObject (VObject Ordinary (ProtoRef ArrayPrototype) props)
              = Normal false).
Proof.
  split; [done|]. split; [|done].
  intros proto props. unfold isPlainObject, strict_eq. simpl. f_equal.
  destruct proto as [|[]]; simpl; repeat case_bool_decide; naive_solver.
Qed.

End PlainObjectProperties.
